(** * avt_341: the PID controller and the candidate-path record

    A shallow embedding of
      - [src/src/control/pid_controller.cpp]   (namespace [avt_341::control])
      - [src/include/avt_341/planning/local/candidate.h]
                                               (namespace [avt_341::planning])

    Numbers.  A C++ [double] is an IEEE 754 binary64 value, and so is a
    value of Rocq's primitive type [float]: [+], [-], [*], [/] round to
    nearest-even, [<?] and [=?] are the IEEE comparisons (false on NaN,
    [-0 =? +0]).  The model assumes the compiler evaluates each operation
    in binary64 and does not fuse a multiplication with an addition.
    The [float] members of [Candidate] are binary32; the class only
    stores and returns them, and every binary32 value is also a binary64
    value, so they are kept in the same type. *)

From Stdlib Require Import Floats ZArith List Bool.
Import ListNotations.

Set Warnings "-inexact-float".

(* ===================================================================== *)
(** * namespace control *)
(* ===================================================================== *)

Module control.

Local Open Scope float_scope.

(** The data members of [class PidController], in the order in which the
    constructor assigns them. *)
Record PidController : Type := mkPidController {
  kp_ : float;
  ki_ : float;
  kd_ : float;
  setpoint_ : float;
  previous_error_ : float;
  integral_ : float;
  overshoot_limiter_ : bool;
  crossed_setpoint_ : bool
}.

(** [PidController::PidController()] (lines 7-16). *)
Definition PidController_ctor : PidController :=
  {| kp_ := 0.3;
     ki_ := 0.0;
     kd_ := 0.05;
     setpoint_ := 0.0;
     previous_error_ := 0.0;
     integral_ := 0.0;
     overshoot_limiter_ := true;
     crossed_setpoint_ := false |}.

(** ** Member functions as state transformers

    A member function reads and assigns the members of [*this]; it is a
    function from the object before the call to the returned value and
    the object after the call. *)

Definition method (A : Type) : Type := PidController -> A * PidController.

Definition ret {A : Type} (a : A) : method A := fun this => (a, this).

Definition bind {A B : Type} (m : method A) (k : A -> method B) : method B :=
  fun this => let (a, this') := m this in k a this'.

Definition this_ : method PidController := fun this => (this, this).

Definition skip : method unit := ret tt.

Declare Scope method_scope.
Delimit Scope method_scope with method.
Notation "x <- m ;; k" := (bind m (fun x => k))
  (at level 61, m at next level, right associativity) : method_scope.
Notation "m ;; k" := (bind m (fun _ => k))
  (at level 61, right associativity) : method_scope.

(** Assignments to the three members that [GetControlVariable] writes. *)

Definition assign_integral_ (v : float) : method unit := fun this =>
  (tt, {| kp_ := kp_ this; ki_ := ki_ this; kd_ := kd_ this;
          setpoint_ := setpoint_ this;
          previous_error_ := previous_error_ this;
          integral_ := v;
          overshoot_limiter_ := overshoot_limiter_ this;
          crossed_setpoint_ := crossed_setpoint_ this |}).

Definition assign_crossed_setpoint_ (v : bool) : method unit := fun this =>
  (tt, {| kp_ := kp_ this; ki_ := ki_ this; kd_ := kd_ this;
          setpoint_ := setpoint_ this;
          previous_error_ := previous_error_ this;
          integral_ := integral_ this;
          overshoot_limiter_ := overshoot_limiter_ this;
          crossed_setpoint_ := v |}).

Definition assign_previous_error_ (v : float) : method unit := fun this =>
  (tt, {| kp_ := kp_ this; ki_ := ki_ this; kd_ := kd_ this;
          setpoint_ := setpoint_ this;
          previous_error_ := v;
          integral_ := integral_ this;
          overshoot_limiter_ := overshoot_limiter_ this;
          crossed_setpoint_ := crossed_setpoint_ this |}).

(** [double PidController::GetControlVariable(double measured_value,
    double dt)] (lines 19-41), statement by statement.  The body has no
    [throw], no assertion and no early [return]. *)
Definition GetControlVariable (measured_value dt : float) : method float :=
  (this <- this_ ;;
   let error := setpoint_ this - measured_value in
   (if overshoot_limiter_ this then
      if error * previous_error_ this <? 0.0 then
        assign_integral_ 0.0 ;;
        assign_crossed_setpoint_ true
      else skip
    else skip) ;;
   this <- this_ ;;
   let ki := if negb (crossed_setpoint_ this) && overshoot_limiter_ this
             then 0.0 else ki_ this in
   assign_integral_ (integral_ this + error * dt) ;;
   this <- this_ ;;
   let derivative := (error - previous_error_ this) / dt in
   let output := kp_ this * error + ki * integral_ this
                 + kd_ this * derivative in
   assign_previous_error_ error ;;
   ret output)%method.

(** A control loop: the calls [(measured_value, dt)] made one after the
    other on the same object; the outputs come back in call order. *)
Fixpoint run (calls : list (float * float)) : method (list float) :=
  match calls with
  | [] => ret []
  | (measured_value, dt) :: rest =>
      (output <- GetControlVariable measured_value dt ;;
       outputs <- run rest ;;
       ret (output :: outputs))%method
  end.

(** ** The update law in the words of the specification (section 4.6)

    Steps 1-4 of the specification, as functions of the controller before
    the call and of the arguments.  They are compared with
    [GetControlVariable] below. *)

(** Step 1: [error = setpoint - measured_value]. *)
Definition law_error (this : PidController) (measured_value : float) : float :=
  setpoint_ this - measured_value.

(** Step 2: the reset happens when overshoot limiting is enabled and
    [error * previous_error < 0]. *)
Definition law_resets (this : PidController) (measured_value : float) : bool :=
  overshoot_limiter_ this
  && (law_error this measured_value * previous_error_ this <? 0).

Definition law_integral_reset (this : PidController) (measured_value : float)
  : float :=
  if law_resets this measured_value then 0 else integral_ this.

Definition law_crossed (this : PidController) (measured_value : float) : bool :=
  if law_resets this measured_value then true else crossed_setpoint_ this.

(** Step 3: [ki_eff = 0] when overshoot limiting is enabled and
    [crossed_setpoint] is false after step 2, otherwise [ki_eff = ki]. *)
Definition law_ki_eff (this : PidController) (measured_value : float) : float :=
  if overshoot_limiter_ this && negb (law_crossed this measured_value)
  then 0 else ki_ this.

(** Step 4: the new integral, the derivative and the output. *)
Definition law_integral (this : PidController) (measured_value dt : float)
  : float :=
  law_integral_reset this measured_value + law_error this measured_value * dt.

Definition law_derivative (this : PidController) (measured_value dt : float)
  : float :=
  (law_error this measured_value - previous_error_ this) / dt.

Definition law_output (this : PidController) (measured_value dt : float)
  : float :=
  kp_ this * law_error this measured_value
  + law_ki_eff this measured_value * law_integral this measured_value dt
  + kd_ this * law_derivative this measured_value dt.

(** The controller after the call: gains, setpoint and the limiter switch
    as before; the three members of steps 2 and 4 updated. *)
Definition law_state (this : PidController) (measured_value dt : float)
  : PidController :=
  {| kp_ := kp_ this; ki_ := ki_ this; kd_ := kd_ this;
     setpoint_ := setpoint_ this;
     previous_error_ := law_error this measured_value;
     integral_ := law_integral this measured_value dt;
     overshoot_limiter_ := overshoot_limiter_ this;
     crossed_setpoint_ := law_crossed this measured_value |}.

(** ** Vocabulary of the properties *)

(** Two controllers that differ at most in the configured [ki_]. *)
Definition differ_only_in_ki (a b : PidController) : Prop :=
  kp_ a = kp_ b /\ kd_ a = kd_ b /\ setpoint_ a = setpoint_ b /\
  previous_error_ a = previous_error_ b /\ integral_ a = integral_ b /\
  overshoot_limiter_ a = overshoot_limiter_ b /\
  crossed_setpoint_ a = crossed_setpoint_ b.

(** No call of the loop sees [error * previous_error_ < 0]. *)
Fixpoint no_crossing (calls : list (float * float)) (this : PidController)
  : bool :=
  match calls with
  | [] => true
  | (measured_value, dt) :: rest =>
      negb (law_error this measured_value * previous_error_ this <? 0)
      && no_crossing rest (snd (GetControlVariable measured_value dt this))
  end.

(** A call is rejected when it hands no control output back to its
    caller. *)
Definition rejected (measured_value dt : float) (this : PidController)
  : Prop :=
  forall output this',
    GetControlVariable measured_value dt this <> (output, this').

(** An output that is not a finite number: NaN or an infinity. *)
Definition not_finite (x : float) : Prop :=
  x = nan \/ x = infinity \/ x = neg_infinity.

(** ** A sample object

    A default-constructed controller whose setpoint and integral gain have
    been chosen; the other members are as the constructor leaves them. *)
Definition controller_at (setpoint ki : float) : PidController :=
  {| kp_ := 0.3;
     ki_ := ki;
     kd_ := 0.05;
     setpoint_ := setpoint;
     previous_error_ := 0.0;
     integral_ := 0.0;
     overshoot_limiter_ := true;
     crossed_setpoint_ := false |}.

(** ** Vocabulary of the properties of a loop *)

(** The sum the statement [integral_ += error*dt] builds up over the calls
    of a loop when nothing clears it, from the constant [setpoint] and the
    integral the loop starts with. *)
Definition accumulate (setpoint integral : float)
    (calls : list (float * float)) : float :=
  fold_left (fun sum call => sum + (setpoint - fst call) * snd call)
            calls integral.

(** The sample controller after it has approached the setpoint 10 from 0
    and overshot to 12: the flag is set. *)
Definition overshot_controller : PidController :=
  Eval vm_compute in snd (run [(0, 1); (12, 1)] (controller_at 10 5)).

(** The conditions under which no call of a loop clears the integral. *)
Definition never_reset (calls : list (float * float)) (this : PidController)
  : Prop :=
  overshoot_limiter_ this = false \/ no_crossing calls this = true.

End control.

(* ===================================================================== *)
(** * namespace planning *)
(* ===================================================================== *)

Module planning.

Local Open Scope float_scope.

Section Candidate.

(** [class Polynomial] is declared in [avt_341/planning/local/polynomial.h],
    which [candidate.h] includes.  [Candidate] uses four things of it: the
    type, its default constructor (for the members of an empty candidate),
    [Polynomial::Derivative()] and [Polynomial::At(float)].  They are the
    parameters of this section. *)
Context {Polynomial : Type}.
Variable Polynomial_ctor : Polynomial.
Variable Polynomial_Derivative : Polynomial -> Polynomial.
Variable Polynomial_At : Polynomial -> float -> float.

(** The private members of [class Candidate] (lines 220-234), in
    declaration order.  [rank_] is an [int]; the class only stores it. *)
Record Candidate : Type := mkCandidate {
  curve_ : Polynomial;
  first_deriv_ : Polynomial;
  second_deriv_ : Polynomial;
  out_of_bounds_ : bool;
  hits_obstacle_ : bool;
  cost_ : float;
  comfortability_ : float;
  static_safety_ : float;
  segmentation_cost_ : float;
  dynamic_safety_ : float;
  rho_final_ : float;
  max_curvature_ : float;
  max_length_ : float;
  s0_ : float;
  rank_ : Z
}.

(** ** Assignment to one member of [*this]

    [assign_m_ v this] is the object after the statement [m_ = v;]. *)

Definition assign_curve_ (v : Polynomial) (this : Candidate) : Candidate :=
  {| curve_ := v; first_deriv_ := first_deriv_ this;
     second_deriv_ := second_deriv_ this;
     out_of_bounds_ := out_of_bounds_ this;
     hits_obstacle_ := hits_obstacle_ this; cost_ := cost_ this;
     comfortability_ := comfortability_ this;
     static_safety_ := static_safety_ this;
     segmentation_cost_ := segmentation_cost_ this;
     dynamic_safety_ := dynamic_safety_ this; rho_final_ := rho_final_ this;
     max_curvature_ := max_curvature_ this; max_length_ := max_length_ this;
     s0_ := s0_ this; rank_ := rank_ this |}.

Definition assign_first_deriv_ (v : Polynomial) (this : Candidate) : Candidate :=
  {| curve_ := curve_ this; first_deriv_ := v;
     second_deriv_ := second_deriv_ this;
     out_of_bounds_ := out_of_bounds_ this;
     hits_obstacle_ := hits_obstacle_ this; cost_ := cost_ this;
     comfortability_ := comfortability_ this;
     static_safety_ := static_safety_ this;
     segmentation_cost_ := segmentation_cost_ this;
     dynamic_safety_ := dynamic_safety_ this; rho_final_ := rho_final_ this;
     max_curvature_ := max_curvature_ this; max_length_ := max_length_ this;
     s0_ := s0_ this; rank_ := rank_ this |}.

Definition assign_second_deriv_ (v : Polynomial) (this : Candidate) : Candidate :=
  {| curve_ := curve_ this; first_deriv_ := first_deriv_ this;
     second_deriv_ := v; out_of_bounds_ := out_of_bounds_ this;
     hits_obstacle_ := hits_obstacle_ this; cost_ := cost_ this;
     comfortability_ := comfortability_ this;
     static_safety_ := static_safety_ this;
     segmentation_cost_ := segmentation_cost_ this;
     dynamic_safety_ := dynamic_safety_ this; rho_final_ := rho_final_ this;
     max_curvature_ := max_curvature_ this; max_length_ := max_length_ this;
     s0_ := s0_ this; rank_ := rank_ this |}.

Definition assign_out_of_bounds_ (v : bool) (this : Candidate) : Candidate :=
  {| curve_ := curve_ this; first_deriv_ := first_deriv_ this;
     second_deriv_ := second_deriv_ this; out_of_bounds_ := v;
     hits_obstacle_ := hits_obstacle_ this; cost_ := cost_ this;
     comfortability_ := comfortability_ this;
     static_safety_ := static_safety_ this;
     segmentation_cost_ := segmentation_cost_ this;
     dynamic_safety_ := dynamic_safety_ this; rho_final_ := rho_final_ this;
     max_curvature_ := max_curvature_ this; max_length_ := max_length_ this;
     s0_ := s0_ this; rank_ := rank_ this |}.

Definition assign_hits_obstacle_ (v : bool) (this : Candidate) : Candidate :=
  {| curve_ := curve_ this; first_deriv_ := first_deriv_ this;
     second_deriv_ := second_deriv_ this;
     out_of_bounds_ := out_of_bounds_ this; hits_obstacle_ := v;
     cost_ := cost_ this; comfortability_ := comfortability_ this;
     static_safety_ := static_safety_ this;
     segmentation_cost_ := segmentation_cost_ this;
     dynamic_safety_ := dynamic_safety_ this; rho_final_ := rho_final_ this;
     max_curvature_ := max_curvature_ this; max_length_ := max_length_ this;
     s0_ := s0_ this; rank_ := rank_ this |}.

Definition assign_cost_ (v : float) (this : Candidate) : Candidate :=
  {| curve_ := curve_ this; first_deriv_ := first_deriv_ this;
     second_deriv_ := second_deriv_ this;
     out_of_bounds_ := out_of_bounds_ this;
     hits_obstacle_ := hits_obstacle_ this; cost_ := v;
     comfortability_ := comfortability_ this;
     static_safety_ := static_safety_ this;
     segmentation_cost_ := segmentation_cost_ this;
     dynamic_safety_ := dynamic_safety_ this; rho_final_ := rho_final_ this;
     max_curvature_ := max_curvature_ this; max_length_ := max_length_ this;
     s0_ := s0_ this; rank_ := rank_ this |}.

Definition assign_comfortability_ (v : float) (this : Candidate) : Candidate :=
  {| curve_ := curve_ this; first_deriv_ := first_deriv_ this;
     second_deriv_ := second_deriv_ this;
     out_of_bounds_ := out_of_bounds_ this;
     hits_obstacle_ := hits_obstacle_ this; cost_ := cost_ this;
     comfortability_ := v; static_safety_ := static_safety_ this;
     segmentation_cost_ := segmentation_cost_ this;
     dynamic_safety_ := dynamic_safety_ this; rho_final_ := rho_final_ this;
     max_curvature_ := max_curvature_ this; max_length_ := max_length_ this;
     s0_ := s0_ this; rank_ := rank_ this |}.

Definition assign_static_safety_ (v : float) (this : Candidate) : Candidate :=
  {| curve_ := curve_ this; first_deriv_ := first_deriv_ this;
     second_deriv_ := second_deriv_ this;
     out_of_bounds_ := out_of_bounds_ this;
     hits_obstacle_ := hits_obstacle_ this; cost_ := cost_ this;
     comfortability_ := comfortability_ this; static_safety_ := v;
     segmentation_cost_ := segmentation_cost_ this;
     dynamic_safety_ := dynamic_safety_ this; rho_final_ := rho_final_ this;
     max_curvature_ := max_curvature_ this; max_length_ := max_length_ this;
     s0_ := s0_ this; rank_ := rank_ this |}.

Definition assign_segmentation_cost_ (v : float) (this : Candidate) : Candidate :=
  {| curve_ := curve_ this; first_deriv_ := first_deriv_ this;
     second_deriv_ := second_deriv_ this;
     out_of_bounds_ := out_of_bounds_ this;
     hits_obstacle_ := hits_obstacle_ this; cost_ := cost_ this;
     comfortability_ := comfortability_ this;
     static_safety_ := static_safety_ this; segmentation_cost_ := v;
     dynamic_safety_ := dynamic_safety_ this; rho_final_ := rho_final_ this;
     max_curvature_ := max_curvature_ this; max_length_ := max_length_ this;
     s0_ := s0_ this; rank_ := rank_ this |}.

Definition assign_dynamic_safety_ (v : float) (this : Candidate) : Candidate :=
  {| curve_ := curve_ this; first_deriv_ := first_deriv_ this;
     second_deriv_ := second_deriv_ this;
     out_of_bounds_ := out_of_bounds_ this;
     hits_obstacle_ := hits_obstacle_ this; cost_ := cost_ this;
     comfortability_ := comfortability_ this;
     static_safety_ := static_safety_ this;
     segmentation_cost_ := segmentation_cost_ this; dynamic_safety_ := v;
     rho_final_ := rho_final_ this; max_curvature_ := max_curvature_ this;
     max_length_ := max_length_ this; s0_ := s0_ this; rank_ := rank_ this |}.

Definition assign_rho_final_ (v : float) (this : Candidate) : Candidate :=
  {| curve_ := curve_ this; first_deriv_ := first_deriv_ this;
     second_deriv_ := second_deriv_ this;
     out_of_bounds_ := out_of_bounds_ this;
     hits_obstacle_ := hits_obstacle_ this; cost_ := cost_ this;
     comfortability_ := comfortability_ this;
     static_safety_ := static_safety_ this;
     segmentation_cost_ := segmentation_cost_ this;
     dynamic_safety_ := dynamic_safety_ this; rho_final_ := v;
     max_curvature_ := max_curvature_ this; max_length_ := max_length_ this;
     s0_ := s0_ this; rank_ := rank_ this |}.

Definition assign_max_curvature_ (v : float) (this : Candidate) : Candidate :=
  {| curve_ := curve_ this; first_deriv_ := first_deriv_ this;
     second_deriv_ := second_deriv_ this;
     out_of_bounds_ := out_of_bounds_ this;
     hits_obstacle_ := hits_obstacle_ this; cost_ := cost_ this;
     comfortability_ := comfortability_ this;
     static_safety_ := static_safety_ this;
     segmentation_cost_ := segmentation_cost_ this;
     dynamic_safety_ := dynamic_safety_ this; rho_final_ := rho_final_ this;
     max_curvature_ := v; max_length_ := max_length_ this; s0_ := s0_ this;
     rank_ := rank_ this |}.

Definition assign_max_length_ (v : float) (this : Candidate) : Candidate :=
  {| curve_ := curve_ this; first_deriv_ := first_deriv_ this;
     second_deriv_ := second_deriv_ this;
     out_of_bounds_ := out_of_bounds_ this;
     hits_obstacle_ := hits_obstacle_ this; cost_ := cost_ this;
     comfortability_ := comfortability_ this;
     static_safety_ := static_safety_ this;
     segmentation_cost_ := segmentation_cost_ this;
     dynamic_safety_ := dynamic_safety_ this; rho_final_ := rho_final_ this;
     max_curvature_ := max_curvature_ this; max_length_ := v;
     s0_ := s0_ this; rank_ := rank_ this |}.

Definition assign_s0_ (v : float) (this : Candidate) : Candidate :=
  {| curve_ := curve_ this; first_deriv_ := first_deriv_ this;
     second_deriv_ := second_deriv_ this;
     out_of_bounds_ := out_of_bounds_ this;
     hits_obstacle_ := hits_obstacle_ this; cost_ := cost_ this;
     comfortability_ := comfortability_ this;
     static_safety_ := static_safety_ this;
     segmentation_cost_ := segmentation_cost_ this;
     dynamic_safety_ := dynamic_safety_ this; rho_final_ := rho_final_ this;
     max_curvature_ := max_curvature_ this; max_length_ := max_length_ this;
     s0_ := v; rank_ := rank_ this |}.

Definition assign_rank_ (v : Z) (this : Candidate) : Candidate :=
  {| curve_ := curve_ this; first_deriv_ := first_deriv_ this;
     second_deriv_ := second_deriv_ this;
     out_of_bounds_ := out_of_bounds_ this;
     hits_obstacle_ := hits_obstacle_ this; cost_ := cost_ this;
     comfortability_ := comfortability_ this;
     static_safety_ := static_safety_ this;
     segmentation_cost_ := segmentation_cost_ this;
     dynamic_safety_ := dynamic_safety_ this; rho_final_ := rho_final_ this;
     max_curvature_ := max_curvature_ this; max_length_ := max_length_ this;
     s0_ := s0_ this; rank_ := v |}.

(** ** Constructors

    [Candidate(){}] (line 24) has no member initialisers and an empty body:
    the three [Polynomial] members are default-constructed and the twelve
    scalar members are left as the storage of the object held them.
    [storage] stands for that previous content. *)
Definition Candidate_ctor (storage : Candidate) : Candidate :=
  let this := storage in
  let this := assign_curve_ Polynomial_ctor this in
  let this := assign_first_deriv_ Polynomial_ctor this in
  let this := assign_second_deriv_ Polynomial_ctor this in
  this.

(** [void Initialize(Polynomial p)] (lines 38-48), one [let] per
    statement. *)
Definition Initialize (p : Polynomial) (this : Candidate) : Candidate :=
  let this := assign_curve_ p this in
  let this := assign_first_deriv_ (Polynomial_Derivative (curve_ this)) this in
  let this :=
    assign_second_deriv_ (Polynomial_Derivative (first_deriv_ this)) this in
  let this := assign_out_of_bounds_ false this in
  let this := assign_hits_obstacle_ false this in
  let this := assign_rank_ (-1)%Z this in
  let this := assign_max_curvature_ 0.0 this in
  let this := assign_max_length_ 100.0 this in
  let this := assign_s0_ 0.0 this in
  this.

(** [Candidate(Polynomial p) { Initialize(p); }] (lines 30-32): the members
    are set up as by the empty constructor, then the body runs. *)
Definition Candidate_ctor_Polynomial (p : Polynomial) (storage : Candidate)
  : Candidate :=
  Initialize p (Candidate_ctor storage).

(** [void operator = (const Candidate &c)] (lines 53-68), one [let] per
    statement: fourteen assignments. *)
Definition operator_assign (c : Candidate) (this : Candidate) : Candidate :=
  let this := assign_curve_ (curve_ c) this in
  let this := assign_first_deriv_ (first_deriv_ c) this in
  let this := assign_second_deriv_ (second_deriv_ c) this in
  let this := assign_out_of_bounds_ (out_of_bounds_ c) this in
  let this := assign_hits_obstacle_ (hits_obstacle_ c) this in
  let this := assign_cost_ (cost_ c) this in
  let this := assign_comfortability_ (comfortability_ c) this in
  let this := assign_static_safety_ (static_safety_ c) this in
  let this := assign_dynamic_safety_ (dynamic_safety_ c) this in
  let this := assign_segmentation_cost_ (segmentation_cost_ c) this in
  let this := assign_rank_ (rank_ c) this in
  let this := assign_max_length_ (max_length_ c) this in
  let this := assign_max_curvature_ (max_curvature_ c) this in
  let this := assign_s0_ (s0_ c) this in
  this.

(** ** Accessors (lines 74-217) *)

Definition At (s : float) (this : Candidate) : float :=
  Polynomial_At (curve_ this) s.
Definition DerivativeAt (s : float) (this : Candidate) : float :=
  Polynomial_At (first_deriv_ this) s.
Definition SecondDerivativeAt (s : float) (this : Candidate) : float :=
  Polynomial_At (second_deriv_ this) s.

Definition IsOutOfBounds (this : Candidate) : bool := out_of_bounds_ this.
Definition HitsObstacle (this : Candidate) : bool := hits_obstacle_ this.
Definition GetCost (this : Candidate) : float := cost_ this.
Definition GetRank (this : Candidate) : Z := rank_ this.
Definition GetMaxCurvature (this : Candidate) : float := max_curvature_ this.
Definition GetComfortability (this : Candidate) : float := comfortability_ this.
Definition GetStaticSafety (this : Candidate) : float := static_safety_ this.
Definition GetDynamicSafety (this : Candidate) : float := dynamic_safety_ this.
Definition GetRhoCost (this : Candidate) : float := rho_final_ this.
Definition GetMaxLength (this : Candidate) : float := max_length_ this.
Definition GetS0 (this : Candidate) : float := s0_ this.
Definition GetSegmentationCost (this : Candidate) : float :=
  segmentation_cost_ this.

Definition SetOutOfBounds (oob : bool) := assign_out_of_bounds_ oob.
Definition SetHitsObstacle (ho : bool) := assign_hits_obstacle_ ho.
Definition SetCost (cost : float) := assign_cost_ cost.
Definition SetRank (rank : Z) := assign_rank_ rank.
Definition SetMaxCurvature (mc : float) := assign_max_curvature_ mc.
Definition SetComfortability (comfort : float) := assign_comfortability_ comfort.
Definition SetStaticSafety (stat_safe : float) := assign_static_safety_ stat_safe.
Definition SetDynamicSafety (dyn_safe : float) := assign_dynamic_safety_ dyn_safe.
Definition SetRhoCost (rho_cost : float) := assign_rho_final_ rho_cost.
Definition SetMaxLength (ml : float) := assign_max_length_ ml.
Definition SetS0 (s0 : float) := assign_s0_ s0.
Definition SetSegmentationCost (segmentation_cost : float) :=
  assign_segmentation_cost_ segmentation_cost.

(** The twelve mutators, as data: one call of a setter on a candidate. *)
Inductive setter : Type :=
| CallSetOutOfBounds (oob : bool)
| CallSetHitsObstacle (ho : bool)
| CallSetCost (cost : float)
| CallSetRank (rank : Z)
| CallSetMaxCurvature (mc : float)
| CallSetComfortability (comfort : float)
| CallSetStaticSafety (stat_safe : float)
| CallSetDynamicSafety (dyn_safe : float)
| CallSetRhoCost (rho_cost : float)
| CallSetMaxLength (ml : float)
| CallSetS0 (s0 : float)
| CallSetSegmentationCost (segmentation_cost : float).

Definition call (f : setter) : Candidate -> Candidate :=
  match f with
  | CallSetOutOfBounds oob => SetOutOfBounds oob
  | CallSetHitsObstacle ho => SetHitsObstacle ho
  | CallSetCost cost => SetCost cost
  | CallSetRank rank => SetRank rank
  | CallSetMaxCurvature mc => SetMaxCurvature mc
  | CallSetComfortability comfort => SetComfortability comfort
  | CallSetStaticSafety stat_safe => SetStaticSafety stat_safe
  | CallSetDynamicSafety dyn_safe => SetDynamicSafety dyn_safe
  | CallSetRhoCost rho_cost => SetRhoCost rho_cost
  | CallSetMaxLength ml => SetMaxLength ml
  | CallSetS0 s0 => SetS0 s0
  | CallSetSegmentationCost segmentation_cost =>
      SetSegmentationCost segmentation_cost
  end.

(** The candidates a program can hold once a curve has been installed:
    built from a polynomial, re-initialised, assigned from such a
    candidate, or changed by a setter. *)
Inductive initialized : Candidate -> Prop :=
| init_ctor (p : Polynomial) (storage : Candidate) :
    initialized (Candidate_ctor_Polynomial p storage)
| init_Initialize (p : Polynomial) (this : Candidate) :
    initialized (Initialize p this)
| init_assign (c this : Candidate) :
    initialized c -> initialized (operator_assign c this)
| init_call (f : setter) (this : Candidate) :
    initialized this -> initialized (call f this).

(** What the invariant of the derivative members says of one object. *)
Definition derivatives_fresh (this : Candidate) : Prop :=
  first_deriv_ this = Polynomial_Derivative (curve_ this) /\
  second_deriv_ this = Polynomial_Derivative (first_deriv_ this).

End Candidate.

Arguments Candidate : clear implicits.

(** ** A polynomial to run the class on *)

Module cubic.

(** Modelled from the spec: the members of [class Polynomial]
    (polynomial.h is not among the sources).  Section 3: "a cubic function
    of one real parameter s (arc length along path), producing a signed
    lateral offset rho(s)", "constructed from its coefficients". *)
Record Polynomial : Type := mkPolynomial {
  a0_ : float;
  a1_ : float;
  a2_ : float;
  a3_ : float
}.

(** Modelled from the spec: [Polynomial::At].  Section 4.1: "At(s) -> rho
    evaluates the curve", defined for every [s].  The order of the
    floating-point operations is not given; the sum is taken term by term
    from the constant up. *)
Definition At (p : Polynomial) (s : float) : float :=
  a0_ p + a1_ p * s + a2_ p * s * s + a3_ p * s * s * s.

(** Modelled from the spec: [Polynomial::Derivative].  Section 4.1:
    "returns the exact derivative (coefficients scaled by their power, one
    degree lower), with no side effects". *)
Definition Derivative (p : Polynomial) : Polynomial :=
  {| a0_ := a1_ p; a1_ := 2 * a2_ p; a2_ := 3 * a3_ p; a3_ := 0 |}.

(** Modelled from the spec: the default constructor, of which the
    specification says nothing; the zero curve of its section 8 is taken. *)
Definition ctor : Polynomial :=
  {| a0_ := 0; a1_ := 0; a2_ := 0; a3_ := 0 |}.

End cubic.

(** The curve [1 + 2 s + 3 s^2 + 4 s^3], and an object whose storage
    held ones, [true] and 7 before any constructor ran. *)
Definition sample_curve : cubic.Polynomial :=
  cubic.mkPolynomial 1 2 3 4.

Definition used_storage {Polynomial : Type} (p : Polynomial)
  : Candidate Polynomial :=
  {| curve_ := p; first_deriv_ := p; second_deriv_ := p;
     out_of_bounds_ := true; hits_obstacle_ := true;
     cost_ := 1; comfortability_ := 1; static_safety_ := 1;
     segmentation_cost_ := 1; dynamic_safety_ := 1; rho_final_ := 1;
     max_curvature_ := 1; max_length_ := 1; s0_ := 1; rank_ := 7 |}.

(** ** Vocabulary of the properties of the setters *)

(** The setters that write a score: the six members [Initialize] does not
    assign. *)
Definition writes_score (f : setter) : bool :=
  match f with
  | CallSetCost _ | CallSetComfortability _ | CallSetStaticSafety _
  | CallSetDynamicSafety _ | CallSetRhoCost _
  | CallSetSegmentationCost _ => true
  | _ => false
  end.

(** Two calls of the same setter (possibly with different arguments). *)
Definition same_setter (f g : setter) : bool :=
  match f, g with
  | CallSetOutOfBounds _, CallSetOutOfBounds _
  | CallSetHitsObstacle _, CallSetHitsObstacle _
  | CallSetCost _, CallSetCost _
  | CallSetRank _, CallSetRank _
  | CallSetMaxCurvature _, CallSetMaxCurvature _
  | CallSetComfortability _, CallSetComfortability _
  | CallSetStaticSafety _, CallSetStaticSafety _
  | CallSetDynamicSafety _, CallSetDynamicSafety _
  | CallSetRhoCost _, CallSetRhoCost _
  | CallSetMaxLength _, CallSetMaxLength _
  | CallSetS0 _, CallSetS0 _
  | CallSetSegmentationCost _, CallSetSegmentationCost _ => true
  | _, _ => false
  end.

End planning.

(* ===================================================================== *)
(** * Facts of binary64 arithmetic used below *)
(* ===================================================================== *)

Module ieee.

Local Open Scope float_scope.

Lemma Prim2SF_zero : Prim2SF 0 = S754_zero false.
Proof. reflexivity. Qed.

(** [x == 0.0] holds of the two zeros only. *)
Lemma eqb_zero_inv (x : float) :
  (x =? 0) = true -> exists s, Prim2SF x = S754_zero s.
Proof.
  rewrite FloatAxioms.eqb_spec, Prim2SF_zero.
  destruct (Prim2SF x) as [s | s | | s m e]; try discriminate.
  - intros _. exists s. reflexivity.
  - destruct s; discriminate.
  - destruct s; discriminate.
Qed.

(** A product with a zero factor is a zero or NaN, so it is not [< 0]. *)
Lemma mul_zero_l_not_neg (x y : float) (s : bool) :
  Prim2SF x = S754_zero s -> (x * y <? 0) = false.
Proof.
  intros Hx. rewrite ltb_spec, mul_spec, Hx, Prim2SF_zero.
  unfold SF64mul, SFmul. destruct (Prim2SF y); reflexivity.
Qed.

Lemma mul_zero_r_not_neg (x y : float) (s : bool) :
  Prim2SF y = S754_zero s -> (x * y <? 0) = false.
Proof.
  intros Hy. rewrite ltb_spec, mul_spec, Hy, Prim2SF_zero.
  unfold SF64mul, SFmul. destruct (Prim2SF x); reflexivity.
Qed.

(** [0.0 + x] is [x], except that [0.0 + (-0.0)] is [+0.0]. *)
Lemma add_zero_l (x : float) :
  0 + x = x \/ (x = neg_zero /\ 0 + x = 0).
Proof.
  pose proof (add_spec 0 x) as H. rewrite Prim2SF_zero in H.
  unfold SF64add, SFadd in H.
  destruct (Prim2SF x) as [[|] | s | | s m e] eqn:Hx.
  - right. split; apply Prim2SF_inj.
    + rewrite Hx. reflexivity.
    + rewrite H. reflexivity.
  - left. apply Prim2SF_inj. rewrite H, Hx. reflexivity.
  - left. apply Prim2SF_inj. rewrite H, Hx. reflexivity.
  - left. apply Prim2SF_inj. rewrite H, Hx. reflexivity.
  - left. apply Prim2SF_inj. rewrite H, Hx. reflexivity.
Qed.

(** [x == x] for every [x] that is not NaN. *)
Lemma eqb_refl (x : float) : is_nan x = false -> (x =? x) = true.
Proof. unfold is_nan. intros H. apply negb_false_iff in H. exact H. Qed.

Lemma not_finite_SF (x : float) :
  control.not_finite x <->
  (Prim2SF x = S754_nan \/ exists s, Prim2SF x = S754_infinity s).
Proof.
  unfold control.not_finite. split.
  - intros [-> | [-> | ->]].
    + left. reflexivity.
    + right. exists false. reflexivity.
    + right. exists true. reflexivity.
  - intros [H | [[|] H]].
    + left. apply Prim2SF_inj. rewrite H. reflexivity.
    + right. right. apply Prim2SF_inj. rewrite H. reflexivity.
    + right. left. apply Prim2SF_inj. rewrite H. reflexivity.
Qed.

(** A quotient by a zero is an infinity or NaN. *)
Lemma div_zero_not_finite (x y : float) (s : bool) :
  Prim2SF y = S754_zero s -> control.not_finite (x / y).
Proof.
  intros Hy. apply not_finite_SF. rewrite div_spec, Hy.
  unfold SF64div, SFdiv.
  destruct (Prim2SF x) as [sx | sx | | sx mx ex]; eauto.
Qed.

(** Multiplying by, or adding, an infinity or NaN never gives a finite
    number. *)
Lemma mul_not_finite_r (x y : float) :
  control.not_finite y -> control.not_finite (x * y).
Proof.
  intros Hy. apply not_finite_SF in Hy. apply not_finite_SF.
  rewrite mul_spec. unfold SF64mul, SFmul.
  destruct Hy as [-> | [s ->]];
    destruct (Prim2SF x) as [sx | sx | | sx mx ex]; eauto.
Qed.

Lemma add_not_finite_r (x y : float) :
  control.not_finite y -> control.not_finite (x + y).
Proof.
  intros Hy. apply not_finite_SF in Hy. apply not_finite_SF.
  rewrite add_spec. unfold SF64add, SFadd.
  destruct Hy as [-> | [s ->]];
    destruct (Prim2SF x) as [sx | sx | | sx mx ex]; eauto.
  all: destruct sx, s; eauto.
Qed.

End ieee.

(* ===================================================================== *)
(** * The PID controller *)
(* ===================================================================== *)

Module PidController_properties.

Import control.
Local Open Scope float_scope.

(** ** One call *)

(** Unfolds a call on a controller given by its members. *)
Ltac run_call :=
  cbv [GetControlVariable bind ret this_ skip assign_integral_
       assign_crossed_setpoint_ assign_previous_error_
       law_output law_state law_integral law_derivative law_ki_eff
       law_crossed law_integral_reset law_resets law_error
       kp_ ki_ kd_ setpoint_ previous_error_ integral_
       overshoot_limiter_ crossed_setpoint_ andb negb fst snd].

(** The code computes the update law, whatever the arguments are. *)
Lemma GetControlVariable_law (measured_value dt : float)
    (this : PidController) :
  GetControlVariable measured_value dt this
  = (law_output this measured_value dt, law_state this measured_value dt).
Proof.
  destruct this as [kp ki kd sp pe i [|] [|]]; run_call;
    try reflexivity;
    destruct ((sp - measured_value) * pe <? 0); reflexivity.
Qed.

Lemma crossed_after_call (measured_value dt : float) (this : PidController) :
  crossed_setpoint_ (snd (GetControlVariable measured_value dt this))
  = law_crossed this measured_value.
Proof. rewrite GetControlVariable_law. reflexivity. Qed.

Lemma integral_after_call (measured_value dt : float) (this : PidController) :
  integral_ (snd (GetControlVariable measured_value dt this))
  = law_integral this measured_value dt.
Proof. rewrite GetControlVariable_law. reflexivity. Qed.

Lemma limiter_after_call (measured_value dt : float) (this : PidController) :
  overshoot_limiter_ (snd (GetControlVariable measured_value dt this))
  = overshoot_limiter_ this.
Proof. rewrite GetControlVariable_law. reflexivity. Qed.

Lemma previous_error_after_call (measured_value dt : float)
    (this : PidController) :
  previous_error_ (snd (GetControlVariable measured_value dt this))
  = law_error this measured_value.
Proof. rewrite GetControlVariable_law. reflexivity. Qed.

(** Without a reset the flag keeps its value and the integral its sum. *)
Lemma no_reset_crossed (this : PidController) (measured_value : float) :
  law_resets this measured_value = false ->
  law_crossed this measured_value = crossed_setpoint_ this.
Proof. unfold law_crossed. intros ->. reflexivity. Qed.

Lemma no_reset_integral (this : PidController) (measured_value dt : float) :
  law_resets this measured_value = false ->
  law_integral this measured_value dt
  = integral_ this + law_error this measured_value * dt.
Proof. unfold law_integral, law_integral_reset. intros ->. reflexivity. Qed.

(** A zero error, now or on the call before, is never a reset. *)
Lemma zero_error_no_reset (this : PidController) (measured_value : float) :
  (law_error this measured_value =? 0) = true ->
  law_resets this measured_value = false.
Proof.
  intros H. apply ieee.eqb_zero_inv in H. destruct H as [s Hs].
  unfold law_resets. rewrite (ieee.mul_zero_l_not_neg _ _ s Hs).
  apply andb_false_r.
Qed.

Lemma zero_previous_error_no_reset (this : PidController)
    (measured_value : float) :
  (previous_error_ this =? 0) = true ->
  law_resets this measured_value = false.
Proof.
  intros H. apply ieee.eqb_zero_inv in H. destruct H as [s Hs].
  unfold law_resets. rewrite (ieee.mul_zero_r_not_neg _ _ s Hs).
  apply andb_false_r.
Qed.

(** ** A loop of calls *)

Lemma run_cons (measured_value dt : float) (rest : list (float * float))
    (this : PidController) :
  run ((measured_value, dt) :: rest) this
  = (fst (GetControlVariable measured_value dt this)
       :: fst (run rest (snd (GetControlVariable measured_value dt this))),
     snd (run rest (snd (GetControlVariable measured_value dt this)))).
Proof.
  cbn [run]. unfold bind at 1.
  destruct (GetControlVariable measured_value dt this) as [output this'].
  unfold bind at 1. cbn [fst snd].
  destruct (run rest this') as [outputs this'']. reflexivity.
Qed.

Lemma run_app_state (before after : list (float * float))
    (this : PidController) :
  snd (run (before ++ after) this) = snd (run after (snd (run before this))).
Proof.
  revert this. induction before as [| [measured_value dt] before IH];
    intros this.
  - reflexivity.
  - cbn [app]. rewrite !run_cons. cbn [snd]. apply IH.
Qed.

Lemma crossed_stays_true (calls : list (float * float))
    (this : PidController) :
  crossed_setpoint_ this = true ->
  crossed_setpoint_ (snd (run calls this)) = true.
Proof.
  revert this. induction calls as [| [measured_value dt] calls IH];
    intros this H.
  - exact H.
  - rewrite run_cons. cbn [snd]. apply IH.
    rewrite crossed_after_call. unfold law_crossed.
    destruct (law_resets this measured_value); [reflexivity | exact H].
Qed.

(** In a loop with the limiter on, the flag false and no crossing, the
    flag stays false. *)
Lemma no_crossing_step (measured_value dt : float)
    (rest : list (float * float)) (this : PidController) :
  no_crossing ((measured_value, dt) :: rest) this = true ->
  law_resets this measured_value = false /\
  no_crossing rest (snd (GetControlVariable measured_value dt this)) = true.
Proof.
  cbn [no_crossing]. intros H. apply andb_true_iff in H.
  destruct H as [H1 H2]. split; [| exact H2].
  unfold law_resets. apply negb_true_iff in H1. rewrite H1.
  apply andb_false_r.
Qed.

Lemma no_crossing_keeps_flag (calls : list (float * float))
    (this : PidController) :
  crossed_setpoint_ this = false ->
  no_crossing calls this = true ->
  crossed_setpoint_ (snd (run calls this)) = false.
Proof.
  revert this. induction calls as [| [measured_value dt] calls IH];
    intros this Hc Hn.
  - exact Hc.
  - apply no_crossing_step in Hn. destruct Hn as [Hr Hn].
    rewrite run_cons. cbn [snd]. apply IH; [| exact Hn].
    rewrite crossed_after_call, no_reset_crossed; assumption.
Qed.

Lemma no_crossing_app (before rest : list (float * float))
    (this : PidController) :
  no_crossing (before ++ rest) this = true ->
  no_crossing before this = true /\
  no_crossing rest (snd (run before this)) = true.
Proof.
  revert this. induction before as [| [measured_value dt] before IH];
    intros this H.
  - split; [reflexivity | exact H].
  - cbn [app] in H. cbn [no_crossing] in H |- *.
    apply andb_true_iff in H. destruct H as [H1 H2].
    apply IH in H2. destruct H2 as [H2 H3].
    rewrite run_cons. cbn [snd]. rewrite H1, H2.
    split; [reflexivity | exact H3].
Qed.

Lemma limiter_after_run (calls : list (float * float))
    (this : PidController) :
  overshoot_limiter_ (snd (run calls this)) = overshoot_limiter_ this.
Proof.
  revert this. induction calls as [| [measured_value dt] calls IH];
    intros this.
  - reflexivity.
  - rewrite run_cons. cbn [snd]. rewrite IH. apply limiter_after_call.
Qed.

(** Before the first crossing two controllers that differ only in [ki_]
    answer one call alike, and still differ only in [ki_] afterwards. *)
Lemma ki_hidden_step (a b : PidController) (measured_value dt : float) :
  differ_only_in_ki a b ->
  overshoot_limiter_ a = true ->
  crossed_setpoint_ a = false ->
  law_resets a measured_value = false ->
  fst (GetControlVariable measured_value dt a)
  = fst (GetControlVariable measured_value dt b) /\
  differ_only_in_ki (snd (GetControlVariable measured_value dt a))
                    (snd (GetControlVariable measured_value dt b)).
Proof.
  intros (Hkp & Hkd & Hsp & Hpe & Hi & Hol & Hcs) Hlim Hcr Hres.
  rewrite !GetControlVariable_law. cbn [fst snd].
  destruct a as [kpa kia kda spa pea ia ola csa].
  destruct b as [kpb kib kdb spb peb ib olb csb].
  cbn in Hkp, Hkd, Hsp, Hpe, Hi, Hol, Hcs, Hlim, Hcr.
  subst kpb kdb spb peb ib olb csb. subst ola csa.
  revert Hres. unfold differ_only_in_ki. run_call.
  intros ->. repeat split; reflexivity.
Qed.

(** ** The properties of the specification *)

(** C1.  PID update law.  For every controller and every call
    [GetControlVariable(measured_value, dt)] with [dt > 0]: with
    [error = setpoint - measured_value], the integral is first reset to 0
    and [crossed_setpoint] set when overshoot limiting is enabled and
    [error * previous_error < 0]; [ki_eff] is 0 exactly when overshoot
    limiting is enabled and [crossed_setpoint] is still false after that
    step, and [ki] otherwise; the new stored integral is
    [integral + error * dt]; the returned output is
    [kp * error + ki_eff * integral' + kd * (error - previous_error) / dt];
    and [previous_error] becomes [error]. *)
Theorem GetControlVariable_update_law (this : PidController)
    (measured_value dt : float) :
  (0 <? dt) = true ->
  let error := setpoint_ this - measured_value in
  let reset := overshoot_limiter_ this && (error * previous_error_ this <? 0) in
  let integral := if reset then 0 else integral_ this in
  let crossed := if reset then true else crossed_setpoint_ this in
  let ki_eff := if overshoot_limiter_ this && negb crossed then 0 else ki_ this in
  let integral' := integral + error * dt in
  let output := fst (GetControlVariable measured_value dt this) in
  let this' := snd (GetControlVariable measured_value dt this) in
  output = kp_ this * error + ki_eff * integral'
           + kd_ this * ((error - previous_error_ this) / dt) /\
  integral_ this' = integral' /\
  crossed_setpoint_ this' = crossed /\
  previous_error_ this' = error /\
  kp_ this' = kp_ this /\ ki_ this' = ki_ this /\ kd_ this' = kd_ this /\
  setpoint_ this' = setpoint_ this /\
  overshoot_limiter_ this' = overshoot_limiter_ this.
Proof.
  intros _. cbv zeta. rewrite GetControlVariable_law.
  repeat split; reflexivity.
Qed.

(** C2.  PID anti-windup.  With overshoot limiting enabled, a call in
    which [error * previous_error < 0] leaves [0.0 + error * dt] in the
    integral.  That is [error * dt] itself, or [+0.0] when the product
    [error * dt] is [-0.0]; so the stored integral [==] the product
    whenever the product is a number.  The value is the same whatever
    integral had been accumulated before the call. *)
Theorem integral_after_crossing (this : PidController)
    (measured_value dt : float) :
  overshoot_limiter_ this = true ->
  ((setpoint_ this - measured_value) * previous_error_ this <? 0) = true ->
  let error := setpoint_ this - measured_value in
  let stored := integral_ (snd (GetControlVariable measured_value dt this)) in
  stored = 0 + error * dt /\
  (stored = error * dt \/ (error * dt = neg_zero /\ stored = 0)) /\
  (is_nan (error * dt) = false -> (stored =? error * dt) = true) /\
  forall accumulated : float,
    integral_ (snd (GetControlVariable measured_value dt
                      (snd (assign_integral_ accumulated this))))
    = stored.
Proof.
  intros Hlim Hneg. cbv zeta.
  assert (Hstored : forall accumulated : float,
             integral_ (snd (GetControlVariable measured_value dt
                               (snd (assign_integral_ accumulated this))))
             = 0 + (setpoint_ this - measured_value) * dt).
  { intros accumulated. rewrite integral_after_call.
    destruct this as [kp ki kd sp pe i ol cs]. cbn in Hlim, Hneg. subst ol.
    run_call. rewrite Hneg. reflexivity. }
  assert (Hthis : integral_ (snd (GetControlVariable measured_value dt this))
                  = 0 + (setpoint_ this - measured_value) * dt).
  { rewrite <- (Hstored (integral_ this)). destruct this; reflexivity. }
  rewrite Hthis. split; [reflexivity |].
  destruct (ieee.add_zero_l ((setpoint_ this - measured_value) * dt))
    as [H | [H1 H2]].
  - split; [left; exact H |]. split; [| exact Hstored].
    rewrite H. apply ieee.eqb_refl.
  - split; [right; split; assumption |]. split; [| exact Hstored].
    intros _. rewrite H2, H1. reflexivity.
Qed.

(** C3.  PID pre-crossing ki-independence.  Two controllers that differ
    only in [ki_], with overshoot limiting enabled and [crossed_setpoint_]
    false, return the same outputs on every sequence of calls in which no
    call sees [error * previous_error < 0]. *)
Theorem outputs_independent_of_ki (a b : PidController)
    (calls : list (float * float)) :
  differ_only_in_ki a b ->
  overshoot_limiter_ a = true ->
  crossed_setpoint_ a = false ->
  no_crossing calls a = true ->
  fst (run calls a) = fst (run calls b).
Proof.
  revert a b. induction calls as [| [measured_value dt] calls IH];
    intros a b Hab Hlim Hcr Hn.
  - reflexivity.
  - apply no_crossing_step in Hn. destruct Hn as [Hres Hn].
    destruct (ki_hidden_step a b measured_value dt Hab Hlim Hcr Hres)
      as [Hout Hab'].
    rewrite !run_cons. cbn [fst]. rewrite Hout. f_equal.
    apply IH; try assumption.
    + rewrite limiter_after_call. exact Hlim.
    + rewrite crossed_after_call, no_reset_crossed; assumption.
Qed.

(** C4, as the code has it.  [GetControlVariable] does not look at [dt]:
    a call with [dt = 0] or [dt < 0] is not rejected, it returns the
    output of the same update law and updates the controller like any
    other call; with [dt = 0] the derivative is a quotient by zero and
    the returned output is an infinity or NaN. *)
Theorem degenerate_dt_is_computed (this : PidController)
    (measured_value dt : float) :
  (dt <=? 0) = true ->
  GetControlVariable measured_value dt this
  = (kp_ this * law_error this measured_value
     + law_ki_eff this measured_value * law_integral this measured_value dt
     + kd_ this * ((law_error this measured_value - previous_error_ this) / dt),
     law_state this measured_value dt) /\
  ~ rejected measured_value dt this /\
  ((dt =? 0) = true ->
   not_finite (fst (GetControlVariable measured_value dt this))).
Proof.
  intros _. split; [apply GetControlVariable_law |]. split.
  - intros H. exact (H _ _ (GetControlVariable_law measured_value dt this)).
  - intros Hz. apply ieee.eqb_zero_inv in Hz. destruct Hz as [s Hs].
    rewrite GetControlVariable_law. cbn [fst]. unfold law_output.
    apply ieee.add_not_finite_r, ieee.mul_not_finite_r.
    exact (ieee.div_zero_not_finite _ _ s Hs).
Qed.

(** C8.  PID initial state: a default-constructed controller has
    [kp = 0.3], [ki = 0.0], [kd = 0.05], overshoot limiting enabled,
    setpoint 0, [crossed_setpoint] false, integral and previous error 0. *)
Theorem PidController_initial_state :
  kp_ PidController_ctor = 0.3 /\
  ki_ PidController_ctor = 0.0 /\
  kd_ PidController_ctor = 0.05 /\
  overshoot_limiter_ PidController_ctor = true /\
  setpoint_ PidController_ctor = 0.0 /\
  crossed_setpoint_ PidController_ctor = false /\
  integral_ PidController_ctor = 0.0 /\
  previous_error_ PidController_ctor = 0.0.
Proof. repeat split. Qed.

(** C9.  [crossed_setpoint_] is monotone: once it is true after some
    calls of [GetControlVariable], it is true after any further calls. *)
Theorem crossed_setpoint_monotone (this : PidController)
    (before after : list (float * float)) :
  crossed_setpoint_ (snd (run before this)) = true ->
  crossed_setpoint_ (snd (run (before ++ after) this)) = true.
Proof.
  intros H. rewrite run_app_state. apply crossed_stays_true. exact H.
Qed.

(** C10.  Strict crossing required.  (1) A call in which
    [error * previous_error < 0] is false neither resets the integral nor
    changes [crossed_setpoint_].  (2) If the error of a call is exactly
    zero, neither that call nor the next one resets the integral or
    changes the flag.  (3) With overshoot limiting enabled and the flag
    false, a loop in which no call sees [error * previous_error < 0] ends
    with the flag false, and every call of it used [ki_eff = 0]. *)
Theorem strict_crossing_required :
  (forall (this : PidController) (measured_value dt : float),
      ((setpoint_ this - measured_value) * previous_error_ this <? 0) = false ->
      let this' := snd (GetControlVariable measured_value dt this) in
      crossed_setpoint_ this' = crossed_setpoint_ this /\
      integral_ this' = integral_ this + (setpoint_ this - measured_value) * dt)
  /\
  (forall (this : PidController) (measured_value dt next_value next_dt : float),
      (setpoint_ this - measured_value =? 0) = true ->
      let this' := snd (GetControlVariable measured_value dt this) in
      let this'' := snd (GetControlVariable next_value next_dt this') in
      crossed_setpoint_ this' = crossed_setpoint_ this /\
      integral_ this' = integral_ this + (setpoint_ this - measured_value) * dt /\
      crossed_setpoint_ this'' = crossed_setpoint_ this /\
      integral_ this'' = integral_ this' + (setpoint_ this - next_value) * next_dt)
  /\
  (forall (this : PidController) (calls : list (float * float)),
      overshoot_limiter_ this = true ->
      crossed_setpoint_ this = false ->
      no_crossing calls this = true ->
      crossed_setpoint_ (snd (run calls this)) = false /\
      forall before measured_value dt rest,
        calls = before ++ (measured_value, dt) :: rest ->
        let at_call := snd (run before this) in
        law_ki_eff at_call measured_value = 0 /\
        fst (GetControlVariable measured_value dt at_call)
        = kp_ at_call * law_error at_call measured_value
          + 0 * law_integral at_call measured_value dt
          + kd_ at_call * law_derivative at_call measured_value dt).
Proof.
  split; [| split].
  - intros this measured_value dt H. cbv zeta.
    assert (Hres : law_resets this measured_value = false).
    { unfold law_resets, law_error. rewrite H. apply andb_false_r. }
    rewrite crossed_after_call, integral_after_call.
    rewrite no_reset_crossed, no_reset_integral by exact Hres.
    split; reflexivity.
  - intros this measured_value dt next_value next_dt H. cbv zeta.
    assert (Hres : law_resets this measured_value = false)
      by (apply zero_error_no_reset; exact H).
    set (this' := snd (GetControlVariable measured_value dt this)).
    assert (Hsp : setpoint_ this' = setpoint_ this)
      by (unfold this'; rewrite GetControlVariable_law; reflexivity).
    assert (Hres' : law_resets this' next_value = false).
    { apply zero_previous_error_no_reset. unfold this'.
      rewrite previous_error_after_call. exact H. }
    assert (Hc : crossed_setpoint_ this' = crossed_setpoint_ this).
    { unfold this'. rewrite crossed_after_call. apply no_reset_crossed, Hres. }
    repeat split.
    + exact Hc.
    + unfold this'. rewrite integral_after_call.
      apply (no_reset_integral this measured_value dt Hres).
    + rewrite crossed_after_call, (no_reset_crossed _ _ Hres'). exact Hc.
    + rewrite integral_after_call, (no_reset_integral _ _ _ Hres').
      unfold law_error. rewrite Hsp. reflexivity.
  - intros this calls Hlim Hcr Hn. split.
    + apply no_crossing_keeps_flag; assumption.
    + intros before measured_value dt rest ->. cbv zeta.
      apply no_crossing_app in Hn. destruct Hn as [Hb Hn].
      apply no_crossing_step in Hn. destruct Hn as [Hres _].
      pose proof (no_crossing_keeps_flag before this Hcr Hb) as Hcr'.
      pose proof (limiter_after_run before this) as Hlim'.
      rewrite Hlim in Hlim'.
      assert (Hki : law_ki_eff (snd (run before this)) measured_value = 0).
      { unfold law_ki_eff. rewrite Hlim', (no_reset_crossed _ _ Hres), Hcr'.
        reflexivity. }
      split; [exact Hki |].
      rewrite GetControlVariable_law. cbn [fst]. unfold law_output.
      rewrite Hki. reflexivity.
Qed.

(** ** Concrete runs *)

(** The example of the specification (section 8): gains 0.3, 0, 0.05,
    setpoint 10, measurement 0, [dt = 1]: the output is 3.5. *)
Example first_call_output :
  GetControlVariable 0 1 (controller_at 10 0)
  = (3.5, {| kp_ := 0.3; ki_ := 0; kd_ := 0.05; setpoint_ := 10;
             previous_error_ := 10; integral_ := 10;
             overshoot_limiter_ := true; crossed_setpoint_ := false |}).
Proof. reflexivity. Qed.

(** Approach from below, then overshoot: the second call crosses, clears
    the integral and turns the integral gain on. *)
Example overshoot_run :
  run [(0, 1); (12, 1); (9, 1)] (controller_at 10 5)
  = ([3.5; -11.199999999999999; 5.4500000000000002],
     {| kp_ := 0.3; ki_ := 5; kd_ := 0.05; setpoint_ := 10;
        previous_error_ := 1; integral_ := 1;
        overshoot_limiter_ := true; crossed_setpoint_ := true |}).
Proof. reflexivity. Qed.

(** The error goes 5, 0, -3, -4: it changes sign through an exact zero,
    no product of consecutive errors is negative, and the flag stays
    false although [ki_] is 2. *)
Example sign_change_through_zero :
  no_crossing [(-5, 1); (0, 1); (3, 1); (4, 1)] (controller_at 0 2) = true /\
  run [(-5, 1); (0, 1); (3, 1); (4, 1)] (controller_at 0 2)
  = ([1.75; -0.25; -1.0499999999999998; -1.25],
     {| kp_ := 0.3; ki_ := 2; kd_ := 0.05; setpoint_ := 0;
        previous_error_ := -4; integral_ := -2;
        overshoot_limiter_ := true; crossed_setpoint_ := false |}).
Proof. split; reflexivity. Qed.

(** A crossing whose product [error * dt] underflows to [-0.0]: the
    stored integral is [+0.0]. *)
Example crossing_with_negative_zero :
  let this := snd (GetControlVariable (-1) 1 PidController_ctor) in
  ((setpoint_ this - 1e-200) * previous_error_ this <? 0) = true /\
  (setpoint_ this - 1e-200) * 1e-200 = neg_zero /\
  integral_ (snd (GetControlVariable 1e-200 1e-200 this)) = 0.
Proof. cbv zeta. repeat split. Qed.

(** ** Instances of the properties *)

Lemma GetControlVariable_update_law_witness :
  (0 <? 1) = true /\
  fst (GetControlVariable 0 1 (controller_at 10 0))
  = 0.3 * 10 + 0 * 10 + 0.05 * ((10 - 0) / 1) /\
  integral_ (snd (GetControlVariable 0 1 (controller_at 10 0))) = 10 /\
  crossed_setpoint_ (snd (GetControlVariable 0 1 (controller_at 10 0))) = false /\
  previous_error_ (snd (GetControlVariable 0 1 (controller_at 10 0))) = 10.
Proof.
  pose proof (GetControlVariable_update_law (controller_at 10 0) 0 1 eq_refl)
    as (H1 & H2 & H3 & H4 & _).
  exact (conj eq_refl (conj H1 (conj H2 (conj H3 H4)))).
Defined.

Lemma integral_after_crossing_witness :
  let this := snd (GetControlVariable 8 3.5 (controller_at 10 0.5)) in
  overshoot_limiter_ this = true /\
  ((setpoint_ this - 11) * previous_error_ this <? 0) = true /\
  integral_ this = 7 /\
  integral_ (snd (GetControlVariable 11 0.5 this)) = (10 - 11) * 0.5.
Proof.
  cbv zeta.
  pose proof (integral_after_crossing
                (snd (GetControlVariable 8 3.5 (controller_at 10 0.5)))
                11 0.5 eq_refl eq_refl) as (_ & [H | [H _]] & _ & _).
  - exact (conj eq_refl (conj eq_refl (conj eq_refl H))).
  - discriminate H.
Defined.

Lemma outputs_independent_of_ki_witness :
  differ_only_in_ki (controller_at 10 0) (controller_at 10 5) /\
  no_crossing [(0, 1); (4, 1); (8, 1)] (controller_at 10 0) = true /\
  fst (run [(0, 1); (4, 1); (8, 1)] (controller_at 10 0))
  = fst (run [(0, 1); (4, 1); (8, 1)] (controller_at 10 5)).
Proof.
  assert (H : differ_only_in_ki (controller_at 10 0) (controller_at 10 5))
    by (repeat split).
  split; [exact H |]. split; [reflexivity |].
  exact (outputs_independent_of_ki (controller_at 10 0) (controller_at 10 5)
           [(0, 1); (4, 1); (8, 1)] H eq_refl eq_refl eq_refl).
Defined.

(** C4, as stated (a degenerate [dt] is rejected), fails.  A default-constructed controller
    called with measurement -10 and [dt = -1] returns the finite output
    2.5, and called with [dt = 0] returns [infinity]; both calls update
    the integral and the previous error, and neither is rejected. *)
Lemma degenerate_dt_not_rejected :
  GetControlVariable (-10) (-1) PidController_ctor
  = (2.5, {| kp_ := 0.3; ki_ := 0; kd_ := 0.05; setpoint_ := 0;
             previous_error_ := 10; integral_ := -10;
             overshoot_limiter_ := true; crossed_setpoint_ := false |}) /\
  ~ rejected (-10) (-1) PidController_ctor /\
  GetControlVariable (-10) 0 PidController_ctor
  = (infinity, {| kp_ := 0.3; ki_ := 0; kd_ := 0.05; setpoint_ := 0;
                  previous_error_ := 10; integral_ := 0;
                  overshoot_limiter_ := true; crossed_setpoint_ := false |}) /\
  ~ rejected (-10) 0 PidController_ctor.
Proof.
  split; [reflexivity |]. split; [intros H; exact (H _ _ eq_refl) |].
  split; [reflexivity |]. intros H; exact (H _ _ eq_refl).
Qed.

Lemma degenerate_dt_is_computed_witness :
  (0 <=? 0) = true /\
  ~ rejected (-10) 0 PidController_ctor /\
  not_finite (fst (GetControlVariable (-10) 0 PidController_ctor)).
Proof.
  pose proof (degenerate_dt_is_computed PidController_ctor (-10) 0 eq_refl)
    as (_ & H2 & H3).
  split; [reflexivity |]. split; [exact H2 | exact (H3 eq_refl)].
Defined.

Lemma crossed_setpoint_monotone_witness :
  crossed_setpoint_ (snd (run [(0, 1); (12, 1)] (controller_at 10 5))) = true /\
  crossed_setpoint_
    (snd (run ([(0, 1); (12, 1)] ++ [(9, 1); (10, 1)]) (controller_at 10 5)))
  = true.
Proof.
  split; [reflexivity |].
  exact (crossed_setpoint_monotone (controller_at 10 5)
           [(0, 1); (12, 1)] [(9, 1); (10, 1)] eq_refl).
Defined.

Lemma strict_crossing_required_witness :
  (* (1) error 6 after error 10: no reset *)
  (let this := snd (GetControlVariable 0 1 (controller_at 10 5)) in
   ((setpoint_ this - 4) * previous_error_ this <? 0) = false /\
   crossed_setpoint_ (snd (GetControlVariable 4 1 this)) = false /\
   integral_ (snd (GetControlVariable 4 1 this)) = 10 + 6 * 1) /\
  (* (2) error 0 after error 5, then error -3 *)
  (let this := snd (GetControlVariable (-5) 1 (controller_at 0 2)) in
   (setpoint_ this - 0 =? 0) = true /\
   crossed_setpoint_ (snd (GetControlVariable 0 1 this)) = false /\
   crossed_setpoint_
     (snd (GetControlVariable 3 1 (snd (GetControlVariable 0 1 this)))) = false) /\
  (* (3) the loop of errors 5, 0, -3, -4 *)
  (no_crossing [(-5, 1); (0, 1); (3, 1); (4, 1)] (controller_at 0 2) = true /\
   crossed_setpoint_
     (snd (run [(-5, 1); (0, 1); (3, 1); (4, 1)] (controller_at 0 2))) = false /\
   law_ki_eff (snd (run [(-5, 1); (0, 1)] (controller_at 0 2))) 3 = 0).
Proof.
  destruct strict_crossing_required as (P1 & P2 & P3).
  cbv zeta. split; [| split].
  - pose proof (P1 (snd (GetControlVariable 0 1 (controller_at 10 5))) 4 1
                   eq_refl) as (H1 & H2).
    split; [reflexivity |]. split; [exact H1 | exact H2].
  - pose proof (P2 (snd (GetControlVariable (-5) 1 (controller_at 0 2)))
                   0 1 3 1 eq_refl) as (H1 & _ & H3 & _).
    split; [reflexivity |]. split; [exact H1 | exact H3].
  - pose proof (P3 (controller_at 0 2) [(-5, 1); (0, 1); (3, 1); (4, 1)]
                   eq_refl eq_refl eq_refl) as (H1 & H2).
    split; [reflexivity |]. split; [exact H1 |].
    exact (proj1 (H2 [(-5, 1); (0, 1)] 3 1 [(4, 1)] eq_refl)).
Defined.

End PidController_properties.

(* ===================================================================== *)
(** * The candidate path *)
(* ===================================================================== *)

Module Candidate_properties.

Import planning.
Local Open Scope float_scope.

Section AnyPolynomial.

Variable Polynomial : Type.
Variable Polynomial_ctor : Polynomial.
Variable Polynomial_Derivative : Polynomial -> Polynomial.
Variable Polynomial_At : Polynomial -> float -> float.

(** ** The three constructors and the assignment, member by member *)

Lemma Initialize_members (p : Polynomial) (this : Candidate Polynomial) :
  Initialize Polynomial_Derivative p this
  = {| curve_ := p;
       first_deriv_ := Polynomial_Derivative p;
       second_deriv_ := Polynomial_Derivative (Polynomial_Derivative p);
       out_of_bounds_ := false;
       hits_obstacle_ := false;
       cost_ := cost_ this;
       comfortability_ := comfortability_ this;
       static_safety_ := static_safety_ this;
       segmentation_cost_ := segmentation_cost_ this;
       dynamic_safety_ := dynamic_safety_ this;
       rho_final_ := rho_final_ this;
       max_curvature_ := 0;
       max_length_ := 100;
       s0_ := 0;
       rank_ := -1 |}.
Proof. reflexivity. Qed.

Lemma Candidate_ctor_members (storage : Candidate Polynomial) :
  Candidate_ctor Polynomial_ctor storage
  = {| curve_ := Polynomial_ctor;
       first_deriv_ := Polynomial_ctor;
       second_deriv_ := Polynomial_ctor;
       out_of_bounds_ := out_of_bounds_ storage;
       hits_obstacle_ := hits_obstacle_ storage;
       cost_ := cost_ storage;
       comfortability_ := comfortability_ storage;
       static_safety_ := static_safety_ storage;
       segmentation_cost_ := segmentation_cost_ storage;
       dynamic_safety_ := dynamic_safety_ storage;
       rho_final_ := rho_final_ storage;
       max_curvature_ := max_curvature_ storage;
       max_length_ := max_length_ storage;
       s0_ := s0_ storage;
       rank_ := rank_ storage |}.
Proof. reflexivity. Qed.

Lemma operator_assign_members (c this : Candidate Polynomial) :
  operator_assign c this
  = {| curve_ := curve_ c;
       first_deriv_ := first_deriv_ c;
       second_deriv_ := second_deriv_ c;
       out_of_bounds_ := out_of_bounds_ c;
       hits_obstacle_ := hits_obstacle_ c;
       cost_ := cost_ c;
       comfortability_ := comfortability_ c;
       static_safety_ := static_safety_ c;
       segmentation_cost_ := segmentation_cost_ c;
       dynamic_safety_ := dynamic_safety_ c;
       rho_final_ := rho_final_ this;
       max_curvature_ := max_curvature_ c;
       max_length_ := max_length_ c;
       s0_ := s0_ c;
       rank_ := rank_ c |}.
Proof. reflexivity. Qed.

(** ** The derivative members *)

(** No setter writes a polynomial member. *)
Lemma call_keeps_polynomials (f : setter) (this : Candidate Polynomial) :
  curve_ (call f this) = curve_ this /\
  first_deriv_ (call f this) = first_deriv_ this /\
  second_deriv_ (call f this) = second_deriv_ this.
Proof. destruct f; repeat split. Qed.

Lemma Initialize_fresh (p : Polynomial) (this : Candidate Polynomial) :
  derivatives_fresh Polynomial_Derivative
    (Initialize Polynomial_Derivative p this).
Proof. split; reflexivity. Qed.

Lemma operator_assign_fresh (c this : Candidate Polynomial) :
  derivatives_fresh Polynomial_Derivative c ->
  derivatives_fresh Polynomial_Derivative (operator_assign c this).
Proof. intros H. exact H. Qed.

Lemma call_fresh (f : setter) (this : Candidate Polynomial) :
  derivatives_fresh Polynomial_Derivative this ->
  derivatives_fresh Polynomial_Derivative (call f this).
Proof.
  unfold derivatives_fresh.
  destruct (call_keeps_polynomials f this) as (-> & -> & ->).
  intros H. exact H.
Qed.

Lemma initialized_fresh (this : Candidate Polynomial) :
  initialized Polynomial_ctor Polynomial_Derivative this ->
  derivatives_fresh Polynomial_Derivative this.
Proof.
  induction 1 as [p storage | p this | c this _ IH | f this _ IH].
  - apply Initialize_fresh.
  - apply Initialize_fresh.
  - apply operator_assign_fresh, IH.
  - apply call_fresh, IH.
Qed.

(** ** The properties of the specification *)

(** C5.  What [a = b] does, for every pair of candidates: the curve, both
    derivative polynomials and eleven scalar attributes of [a] become
    those of [b]; [rho_final_], the value read back by [GetRhoCost], is
    not assigned and keeps the value [a] had. *)
Theorem operator_assign_skips_rho_final (b a : Candidate Polynomial) :
  let a' := operator_assign b a in
  curve_ a' = curve_ b /\
  first_deriv_ a' = first_deriv_ b /\
  second_deriv_ a' = second_deriv_ b /\
  IsOutOfBounds a' = IsOutOfBounds b /\
  HitsObstacle a' = HitsObstacle b /\
  GetCost a' = GetCost b /\
  GetComfortability a' = GetComfortability b /\
  GetStaticSafety a' = GetStaticSafety b /\
  GetDynamicSafety a' = GetDynamicSafety b /\
  GetSegmentationCost a' = GetSegmentationCost b /\
  GetRank a' = GetRank b /\
  GetMaxCurvature a' = GetMaxCurvature b /\
  GetMaxLength a' = GetMaxLength b /\
  GetS0 a' = GetS0 b /\
  GetRhoCost a' = GetRhoCost a.
Proof. cbv zeta. rewrite operator_assign_members. repeat split. Qed.

(** C6.  The defaults are those of [Initialize].  A candidate constructed
    from a polynomial is in bounds, hits nothing, has rank -1, maximal
    curvature 0, maximal length 100 and [s0] 0.  The empty constructor
    assigns none of the six members: each keeps what the storage held, so
    that over the storage [used_storage] the new candidate is out of
    bounds, hits an obstacle, and has rank 7 and maximal length 1. *)
Theorem Candidate_ctor_defaults :
  (forall (p : Polynomial) (storage : Candidate Polynomial),
      let c := Candidate_ctor_Polynomial
                 Polynomial_ctor Polynomial_Derivative p storage in
      IsOutOfBounds c = false /\ HitsObstacle c = false /\
      GetRank c = (-1)%Z /\ GetMaxCurvature c = 0 /\
      GetMaxLength c = 100 /\ GetS0 c = 0) /\
  (forall storage : Candidate Polynomial,
      let c := Candidate_ctor Polynomial_ctor storage in
      IsOutOfBounds c = out_of_bounds_ storage /\
      HitsObstacle c = hits_obstacle_ storage /\
      GetRank c = rank_ storage /\
      GetMaxCurvature c = max_curvature_ storage /\
      GetMaxLength c = max_length_ storage /\
      GetS0 c = s0_ storage) /\
  (let c := Candidate_ctor Polynomial_ctor (used_storage Polynomial_ctor) in
   IsOutOfBounds c = true /\ HitsObstacle c = true /\
   GetRank c = 7%Z /\ GetMaxCurvature c = 1 /\
   GetMaxLength c = 1 /\ GetS0 c = 1).
Proof. cbv zeta. repeat split. Qed.

(** C7.  Candidate derivative invariant.  For every candidate that was
    constructed from a polynomial or initialised with one, and whatever
    setters, assignments from such candidates and re-initialisations
    followed: [DerivativeAt(s)] is the value at [s] of
    [Polynomial::Derivative()] of the stored curve and
    [SecondDerivativeAt(s)] the value at [s] of [Polynomial::Derivative()]
    of the first-derivative polynomial, for every [s]; no setter changes
    any of the three polynomials; and [Initialize] replaces all three
    together. *)
Theorem derivative_members_follow_curve (this : Candidate Polynomial) :
  initialized Polynomial_ctor Polynomial_Derivative this ->
  (forall s : float,
      DerivativeAt Polynomial_At s this
      = Polynomial_At (Polynomial_Derivative (curve_ this)) s) /\
  (forall s : float,
      SecondDerivativeAt Polynomial_At s this
      = Polynomial_At (Polynomial_Derivative (first_deriv_ this)) s) /\
  (forall f : setter,
      curve_ (call f this) = curve_ this /\
      first_deriv_ (call f this) = first_deriv_ this /\
      second_deriv_ (call f this) = second_deriv_ this) /\
  (forall p : Polynomial,
      let this' := Initialize Polynomial_Derivative p this in
      curve_ this' = p /\
      first_deriv_ this' = Polynomial_Derivative p /\
      second_deriv_ this' = Polynomial_Derivative (Polynomial_Derivative p)).
Proof.
  intros H. apply initialized_fresh in H. destruct H as [H1 H2].
  split; [| split; [| split]].
  - intros s. unfold DerivativeAt. rewrite H1. reflexivity.
  - intros s. unfold SecondDerivativeAt. rewrite H2. reflexivity.
  - intros f. apply call_keeps_polynomials.
  - intros p. cbv zeta. rewrite Initialize_members. repeat split.
Qed.

End AnyPolynomial.

(** ** On the cubic polynomial *)

(** [a = b] where [a] carries deviation cost 1 and [b] carries 2: [a]
    still answers 1. *)
Example assignment_keeps_old_rho_cost :
  let a := SetRhoCost 1 (Candidate_ctor_Polynomial cubic.ctor cubic.Derivative
                           cubic.ctor (used_storage cubic.ctor)) in
  let b := SetRhoCost 2 (Candidate_ctor_Polynomial cubic.ctor cubic.Derivative
                           sample_curve (used_storage cubic.ctor)) in
  GetRhoCost b = 2 /\
  GetRhoCost (operator_assign b a) = 1 /\
  curve_ (operator_assign b a) = sample_curve.
Proof. cbv zeta. repeat split. Qed.

(** The derivatives of [1 + 2 s + 3 s^2 + 4 s^3] at [s = 2]. *)
Example sample_curve_derivatives :
  let c := Candidate_ctor_Polynomial cubic.ctor cubic.Derivative
             sample_curve (used_storage cubic.ctor) in
  At cubic.At 2 c = 49 /\
  DerivativeAt cubic.At 2 c = 62 /\
  SecondDerivativeAt cubic.At 2 c = 54.
Proof. cbv zeta. repeat split. Qed.

(** Specification, section 4.1: differentiating a constant yields the
    zero polynomial; section 8: the zero curve is 0 everywhere sampled. *)
Example constant_curve_derivative :
  cubic.Derivative (cubic.mkPolynomial 5 0 0 0) = cubic.ctor /\
  cubic.At cubic.ctor 17.5 = 0.
Proof. split; reflexivity. Qed.

Lemma derivative_members_follow_curve_witness :
  initialized cubic.ctor cubic.Derivative
    (SetCost 3 (Candidate_ctor_Polynomial cubic.ctor cubic.Derivative
                  sample_curve (used_storage cubic.ctor))) /\
  DerivativeAt cubic.At 2
    (SetCost 3 (Candidate_ctor_Polynomial cubic.ctor cubic.Derivative
                  sample_curve (used_storage cubic.ctor)))
  = cubic.At (cubic.Derivative sample_curve) 2 /\
  SecondDerivativeAt cubic.At 2
    (SetCost 3 (Candidate_ctor_Polynomial cubic.ctor cubic.Derivative
                  sample_curve (used_storage cubic.ctor)))
  = cubic.At (cubic.Derivative (cubic.Derivative sample_curve)) 2.
Proof.
  assert (H : initialized cubic.ctor cubic.Derivative
                (SetCost 3 (Candidate_ctor_Polynomial cubic.ctor
                              cubic.Derivative sample_curve
                              (used_storage cubic.ctor)))).
  { apply (init_call _ _ (CallSetCost 3)). apply init_ctor. }
  pose proof (derivative_members_follow_curve _ cubic.ctor cubic.Derivative
                cubic.At _ H) as (H1 & H2 & _).
  exact (conj H (conj (H1 2) (H2 2))).
Defined.

End Candidate_properties.

(* ===================================================================== *)
(** * Loops of the PID controller *)
(* ===================================================================== *)

Module ieee_nan.

Local Open Scope float_scope.

(** NaN is absorbing for the four operations the controller uses, and
    compares [<] with nothing. *)

Lemma sub_nan_r (x : float) : x - nan = nan.
Proof.
  apply Prim2SF_inj. rewrite sub_spec. unfold SF64sub, SFsub.
  change (Prim2SF nan) with S754_nan. destruct (Prim2SF x); reflexivity.
Qed.

Lemma mul_nan_l (y : float) : nan * y = nan.
Proof.
  apply Prim2SF_inj. rewrite mul_spec. unfold SF64mul, SFmul.
  change (Prim2SF nan) with S754_nan. reflexivity.
Qed.

Lemma mul_nan_r (x : float) : x * nan = nan.
Proof.
  apply Prim2SF_inj. rewrite mul_spec. unfold SF64mul, SFmul.
  change (Prim2SF nan) with S754_nan. destruct (Prim2SF x); reflexivity.
Qed.

Lemma add_nan_l (y : float) : nan + y = nan.
Proof.
  apply Prim2SF_inj. rewrite add_spec. unfold SF64add, SFadd.
  change (Prim2SF nan) with S754_nan. reflexivity.
Qed.

Lemma add_nan_r (x : float) : x + nan = nan.
Proof.
  apply Prim2SF_inj. rewrite add_spec. unfold SF64add, SFadd.
  change (Prim2SF nan) with S754_nan. destruct (Prim2SF x); reflexivity.
Qed.

Lemma nan_mul_not_neg (y : float) : (nan * y <? 0) = false.
Proof. rewrite mul_nan_l. reflexivity. Qed.

(** Zero times an infinity or NaN is NaN. *)
Lemma zero_mul_not_finite (x : float) :
  control.not_finite x -> 0 * x = nan.
Proof.
  intros H. apply ieee.not_finite_SF in H.
  apply Prim2SF_inj. rewrite mul_spec, ieee.Prim2SF_zero.
  unfold SF64mul, SFmul. change (Prim2SF nan) with S754_nan.
  destruct H as [-> | [s ->]]; reflexivity.
Qed.

End ieee_nan.

Module PidController_loops.

Import control.
Import PidController_properties.
Local Open Scope float_scope.

(** ** What a call leaves alone *)

Lemma configuration_after_call (measured_value dt : float)
    (this : PidController) :
  let this' := snd (GetControlVariable measured_value dt this) in
  kp_ this' = kp_ this /\ ki_ this' = ki_ this /\ kd_ this' = kd_ this /\
  setpoint_ this' = setpoint_ this /\
  overshoot_limiter_ this' = overshoot_limiter_ this.
Proof. cbv zeta. rewrite GetControlVariable_law. repeat split. Qed.

Lemma never_reset_step (measured_value dt : float)
    (rest : list (float * float)) (this : PidController) :
  never_reset ((measured_value, dt) :: rest) this ->
  law_resets this measured_value = false /\
  never_reset rest (snd (GetControlVariable measured_value dt this)).
Proof.
  intros [Hoff | Hn].
  - split.
    + unfold law_resets. rewrite Hoff. reflexivity.
    + left. rewrite limiter_after_call. exact Hoff.
  - apply no_crossing_step in Hn. destruct Hn as [Hres Hn].
    split; [exact Hres | right; exact Hn].
Qed.

(** With the flag set or the limiter off, [ki] is [ki_]. *)
Lemma ki_eff_enabled (this : PidController) (measured_value : float) :
  overshoot_limiter_ this = false \/ crossed_setpoint_ this = true ->
  law_ki_eff this measured_value = ki_ this.
Proof.
  unfold law_ki_eff, law_crossed. intros [H | H]; rewrite H.
  - reflexivity.
  - destruct (law_resets this measured_value);
      rewrite andb_false_r; reflexivity.
Qed.

(** A NaN integral makes the output NaN, whatever the gains are. *)
Lemma nan_integral_output (this : PidController) (measured_value dt : float) :
  law_integral this measured_value dt = nan ->
  law_output this measured_value dt = nan.
Proof.
  intros H. unfold law_output. rewrite H.
  rewrite ieee_nan.mul_nan_r, ieee_nan.add_nan_r, ieee_nan.add_nan_l.
  reflexivity.
Qed.

Lemma nan_integral_stays (calls : list (float * float))
    (this : PidController) :
  integral_ this = nan ->
  never_reset calls this ->
  fst (run calls this) = repeat nan (length calls) /\
  integral_ (snd (run calls this)) = nan.
Proof.
  revert this. induction calls as [| [measured_value dt] calls IH];
    intros this Hi Hn.
  - split; [reflexivity | exact Hi].
  - apply never_reset_step with (dt := dt) in Hn. destruct Hn as [Hres Hn].
    assert (Hi' : law_integral this measured_value dt = nan).
    { rewrite (no_reset_integral _ _ _ Hres), Hi. apply ieee_nan.add_nan_l. }
    rewrite run_cons. cbn [fst snd length repeat].
    destruct (IH (snd (GetControlVariable measured_value dt this)))
      as [IH1 IH2].
    + rewrite integral_after_call. exact Hi'.
    + exact Hn.
    + split; [| exact IH2].
      rewrite IH1, GetControlVariable_law. cbn [fst].
      rewrite (nan_integral_output _ _ _ Hi'). reflexivity.
Qed.

(** ** Properties of loops *)

(** X1.  No sequence of calls of [GetControlVariable] changes the gains,
    the setpoint or the limiter switch. *)
Theorem run_keeps_configuration (this : PidController)
    (calls : list (float * float)) :
  let this' := snd (run calls this) in
  kp_ this' = kp_ this /\ ki_ this' = ki_ this /\ kd_ this' = kd_ this /\
  setpoint_ this' = setpoint_ this /\
  overshoot_limiter_ this' = overshoot_limiter_ this.
Proof.
  cbv zeta. revert this.
  induction calls as [| [measured_value dt] calls IH]; intros this.
  - repeat split.
  - rewrite run_cons. cbn [snd].
    destruct (IH (snd (GetControlVariable measured_value dt this)))
      as (H1 & H2 & H3 & H4 & H5).
    destruct (configuration_after_call measured_value dt this)
      as (G1 & G2 & G3 & G4 & G5).
    rewrite H1, H2, H3, H4, H5. repeat split; assumption.
Qed.

(** X2.  After any loop that ends with a call on [measured_value], the
    stored previous error is [setpoint_ - measured_value]: the derivative
    term of the next call looks back one call and no further. *)
Theorem previous_error_is_last_error (this : PidController)
    (calls : list (float * float)) (measured_value dt : float) :
  previous_error_ (snd (run (calls ++ [(measured_value, dt)]) this))
  = setpoint_ this - measured_value.
Proof.
  rewrite run_app_state, run_cons. cbn [run ret snd].
  rewrite previous_error_after_call. unfold law_error.
  destruct (run_keeps_configuration this calls) as (_ & _ & _ & H & _).
  rewrite H. reflexivity.
Qed.

(** X3.  With the limiter on and the flag false at the start of a loop,
    the flag is true at its end exactly when some call of the loop saw
    [error * previous_error_ < 0]. *)
Theorem flag_set_iff_crossing (this : PidController)
    (calls : list (float * float)) :
  overshoot_limiter_ this = true ->
  crossed_setpoint_ this = false ->
  crossed_setpoint_ (snd (run calls this)) = negb (no_crossing calls this).
Proof.
  revert this. induction calls as [| [measured_value dt] calls IH];
    intros this Hlim Hcr.
  - exact Hcr.
  - rewrite run_cons. cbn [snd no_crossing].
    destruct (law_error this measured_value * previous_error_ this <? 0)
      eqn:Hneg; cbn [negb andb].
    + apply crossed_stays_true. rewrite crossed_after_call.
      unfold law_crossed, law_resets. rewrite Hlim, Hneg. reflexivity.
    + apply IH.
      * rewrite limiter_after_call. exact Hlim.
      * rewrite crossed_after_call. unfold law_crossed, law_resets.
        rewrite Hlim, Hneg. exact Hcr.
Qed.

(** X4.  Once the flag is set, or with the limiter off, every later call
    applies the configured integral gain to the integral it has just
    stored: the output is
    [kp_ * error + ki_ * integral_ + kd_ * (error - previous_error_) / dt]. *)
Theorem integral_gain_enabled (this : PidController)
    (before : list (float * float)) (measured_value dt : float) :
  overshoot_limiter_ this = false \/ crossed_setpoint_ this = true ->
  let at_call := snd (run before this) in
  let error := setpoint_ this - measured_value in
  fst (GetControlVariable measured_value dt at_call)
  = kp_ this * error
    + ki_ this * integral_ (snd (GetControlVariable measured_value dt at_call))
    + kd_ this * ((error - previous_error_ at_call) / dt).
Proof.
  intros H. cbv zeta.
  destruct (run_keeps_configuration this before) as (H1 & H2 & H3 & H4 & H5).
  assert (H' : overshoot_limiter_ (snd (run before this)) = false \/
               crossed_setpoint_ (snd (run before this)) = true).
  { destruct H as [H | H]; [left | right].
    - rewrite H5. exact H.
    - apply crossed_stays_true. exact H. }
  rewrite integral_after_call, GetControlVariable_law. cbn [fst].
  unfold law_output, law_derivative, law_error.
  rewrite (ki_eff_enabled _ measured_value H'), H1, H2, H3, H4. reflexivity.
Qed.

(** X5.  While nothing clears it (the limiter is off, or no call of the
    loop sees [error * previous_error_ < 0]) the stored integral is the
    running sum of [error * dt] over all the calls, also while the limiter
    keeps its gain at zero; and the flag keeps its value. *)
Theorem integral_accumulates (this : PidController)
    (calls : list (float * float)) :
  overshoot_limiter_ this = false \/ no_crossing calls this = true ->
  integral_ (snd (run calls this))
  = accumulate (setpoint_ this) (integral_ this) calls /\
  crossed_setpoint_ (snd (run calls this)) = crossed_setpoint_ this.
Proof.
  revert this. induction calls as [| [measured_value dt] calls IH];
    intros this Hn.
  - split; reflexivity.
  - apply never_reset_step with (dt := dt) in Hn. destruct Hn as [Hres Hn].
    rewrite run_cons. cbn [snd].
    destruct (IH _ Hn) as [IH1 IH2].
    destruct (configuration_after_call measured_value dt this)
      as (_ & _ & _ & Hsp & _).
    rewrite IH1, IH2, Hsp, integral_after_call, crossed_after_call.
    rewrite (no_reset_integral _ _ _ Hres), (no_reset_crossed _ _ Hres).
    split; reflexivity.
Qed.

(** X6.  A NaN measurement is not filtered.  The call returns NaN and
    stores NaN as integral and as previous error; and while nothing clears
    the integral (the limiter is off, or no later call sees
    [error * previous_error_ < 0]) every later call returns NaN as well,
    whatever it measures and whatever the gains are. *)
Theorem nan_measurement_poisons (this : PidController) (dt : float)
    (later : list (float * float)) :
  overshoot_limiter_ this = false \/
  no_crossing later (snd (GetControlVariable nan dt this)) = true ->
  fst (run ((nan, dt) :: later) this) = repeat nan (S (length later)) /\
  previous_error_ (snd (GetControlVariable nan dt this)) = nan /\
  integral_ (snd (GetControlVariable nan dt this)) = nan /\
  integral_ (snd (run ((nan, dt) :: later) this)) = nan.
Proof.
  intros Hn.
  assert (He : law_error this nan = nan) by apply ieee_nan.sub_nan_r.
  assert (Hi : law_integral this nan dt = nan).
  { unfold law_integral. rewrite He, ieee_nan.mul_nan_l.
    apply ieee_nan.add_nan_r. }
  assert (Hn' : never_reset later (snd (GetControlVariable nan dt this))).
  { destruct Hn as [Hoff | Hn]; [left | right; exact Hn].
    rewrite limiter_after_call. exact Hoff. }
  destruct (nan_integral_stays later (snd (GetControlVariable nan dt this)))
    as [H1 H2]; [rewrite integral_after_call; exact Hi | exact Hn' |].
  rewrite run_cons. cbn [fst snd repeat]. rewrite H1, H2.
  rewrite previous_error_after_call, integral_after_call, He, Hi.
  rewrite GetControlVariable_law. cbn [fst].
  rewrite (nan_integral_output _ _ _ Hi). repeat split.
Qed.

(** X12.  The limiter suppresses the integral term by multiplying the
    stored integral with a zero gain, not by leaving the term out: if the
    integral stored by a call is an infinity or NaN while the flag is
    still false, the call returns NaN, however small the proportional and
    derivative terms are. *)
Theorem suppressed_integral_overflow (this : PidController)
    (measured_value dt : float) :
  overshoot_limiter_ this = true ->
  crossed_setpoint_ (snd (GetControlVariable measured_value dt this)) = false ->
  not_finite (integral_ (snd (GetControlVariable measured_value dt this))) ->
  fst (GetControlVariable measured_value dt this) = nan.
Proof.
  rewrite crossed_after_call, integral_after_call, GetControlVariable_law.
  intros Hlim Hcr Hinf. cbn [fst]. unfold law_output, law_ki_eff.
  rewrite Hlim, Hcr. cbn [andb negb].
  rewrite (ieee_nan.zero_mul_not_finite _ Hinf).
  rewrite ieee_nan.add_nan_r, ieee_nan.add_nan_l. reflexivity.
Qed.

(** ** Instances *)

(** Setpoint 1e308 approached from 0 with [dt = 10]: the proportional
    and derivative terms are finite, the integral overflows. *)
Lemma suppressed_integral_overflow_witness :
  overshoot_limiter_ (controller_at 1e308 5) = true /\
  crossed_setpoint_ (snd (GetControlVariable 0 10 (controller_at 1e308 5)))
  = false /\
  integral_ (snd (GetControlVariable 0 10 (controller_at 1e308 5)))
  = infinity /\
  is_finite (0.3 * (1e308 - 0) + 0.05 * ((1e308 - 0 - 0) / 10)) = true /\
  fst (GetControlVariable 0 10 (controller_at 1e308 5)) = nan.
Proof.
  pose proof (suppressed_integral_overflow (controller_at 1e308 5) 0 10
                eq_refl eq_refl (or_intror (or_introl eq_refl))) as H.
  exact (conj eq_refl (conj eq_refl (conj eq_refl (conj eq_refl H)))).
Defined.

Lemma flag_set_iff_crossing_witness :
  overshoot_limiter_ (controller_at 10 5) = true /\
  crossed_setpoint_ (controller_at 10 5) = false /\
  no_crossing [(0, 1); (12, 1); (9, 1)] (controller_at 10 5) = false /\
  crossed_setpoint_ (snd (run [(0, 1); (12, 1); (9, 1)] (controller_at 10 5)))
  = negb (no_crossing [(0, 1); (12, 1); (9, 1)] (controller_at 10 5)).
Proof.
  exact (conj eq_refl (conj eq_refl (conj eq_refl
           (flag_set_iff_crossing (controller_at 10 5)
              [(0, 1); (12, 1); (9, 1)] eq_refl eq_refl)))).
Defined.

Lemma integral_gain_enabled_witness :
  crossed_setpoint_ overshot_controller = true /\
  fst (GetControlVariable 8 1 (snd (run [(9, 1)] overshot_controller)))
  = 0.3 * (10 - 8) + 5 * (1 + (10 - 8) * 1) + 0.05 * ((10 - 8 - 1) / 1).
Proof.
  pose proof (integral_gain_enabled overshot_controller [(9, 1)] 8 1
                (or_intror eq_refl)) as H.
  exact (conj eq_refl H).
Defined.

Lemma integral_accumulates_witness :
  no_crossing [(0, 1); (4, 1); (8, 1)] (controller_at 10 5) = true /\
  integral_ (snd (run [(0, 1); (4, 1); (8, 1)] (controller_at 10 5)))
  = 0 + (10 - 0) * 1 + (10 - 4) * 1 + (10 - 8) * 1.
Proof.
  pose proof (integral_accumulates (controller_at 10 5)
                [(0, 1); (4, 1); (8, 1)] (or_intror eq_refl)) as [H _].
  exact (conj eq_refl H).
Defined.

Lemma nan_measurement_poisons_witness :
  no_crossing [(4, 1); (8, 1)]
    (snd (GetControlVariable nan 1 (controller_at 10 0))) = true /\
  fst (run [(nan, 1); (4, 1); (8, 1)] (controller_at 10 0)) = [nan; nan; nan].
Proof.
  pose proof (nan_measurement_poisons (controller_at 10 0) 1
                [(4, 1); (8, 1)] (or_intror eq_refl)) as [H _].
  exact (conj eq_refl H).
Defined.

End PidController_loops.

(* ===================================================================== *)
(** * How the operations of a candidate compose *)
(* ===================================================================== *)

Module Candidate_composition.

Import planning.
Local Open Scope float_scope.

Section AnyPolynomial.

Variable Polynomial : Type.
Variable Polynomial_ctor : Polynomial.
Variable Polynomial_Derivative : Polynomial -> Polynomial.

(** X7.  A score written before a call of [Initialize] survives the
    call, because [Initialize] assigns none of [cost_], [comfortability_],
    [static_safety_], [dynamic_safety_], [rho_final_] and
    [segmentation_cost_]; what any other setter wrote is overwritten. *)
Theorem Initialize_after_setter (f : setter) (p : Polynomial)
    (this : Candidate Polynomial) :
  Initialize Polynomial_Derivative p (call f this)
  = if writes_score f
    then call f (Initialize Polynomial_Derivative p this)
    else Initialize Polynomial_Derivative p this.
Proof. destruct f; reflexivity. Qed.

(** X8.  Calls of two different setters commute, and of two calls of the
    same setter the later one alone counts. *)
Theorem setters_commute (f g : setter) (this : Candidate Polynomial) :
  call f (call g this)
  = if same_setter f g then call f this else call g (call f this).
Proof. destruct f, g; reflexivity. Qed.

(** X9.  [a = b; a.SetRhoCost(b.GetRhoCost());] makes [a] equal to [b] in
    every member: the deviation cost is the one thing the assignment
    leaves out. *)
Theorem assignment_and_SetRhoCost_copy (b a : Candidate Polynomial) :
  SetRhoCost (GetRhoCost b) (operator_assign b a) = b.
Proof. destruct b; reflexivity. Qed.

(** X10.  Self-assignment changes nothing, assigning twice is assigning
    once, and of two assignments in a row only the second counts. *)
Theorem assignment_overwrites (c b a : Candidate Polynomial) :
  operator_assign a a = a /\
  operator_assign b (operator_assign b a) = operator_assign b a /\
  operator_assign c (operator_assign b a) = operator_assign c a.
Proof.
  rewrite !Candidate_properties.operator_assign_members. cbn.
  split; [destruct a; reflexivity | split; reflexivity].
Qed.

(** X11.  [Initialize] forgets the curve it replaces: initialising with
    [q] and then with [p] is initialising with [p]; and the constructor
    from a polynomial leaves the object that [Initialize] alone leaves on
    the same storage (the default-constructed polynomial members are never
    seen). *)
Theorem Initialize_overwrites (p q : Polynomial)
    (this : Candidate Polynomial) :
  Initialize Polynomial_Derivative p (Initialize Polynomial_Derivative q this)
  = Initialize Polynomial_Derivative p this /\
  Candidate_ctor_Polynomial Polynomial_ctor Polynomial_Derivative p this
  = Initialize Polynomial_Derivative p this.
Proof.
  unfold Candidate_ctor_Polynomial.
  rewrite !Candidate_properties.Initialize_members,
    Candidate_properties.Candidate_ctor_members. cbn.
  split; reflexivity.
Qed.

End AnyPolynomial.

End Candidate_composition.
